(** * CDroidJNI: the JNI forwarding helpers of jni-kit

    A shallow embedding of [Sources/CDroidJNI/Helpers.cpp] and
    [Sources/CDroidJNI/include/Helpers.h].

    Every helper is straight-line code around calls through the JNI function
    tables ([env->...] and [vm->...]).  The helpers are therefore written as
    programs over the calls they make ([prog]); a runtime is anything that
    answers those calls while threading its own state ([runtime]).  Theorems
    quantified over every [runtime] speak about the helpers alone; theorems
    about array contents are stated against [Jvm], a reference model of the
    entry points the helpers use.  [TU] gives the helper bodies once more
    in a setting where code could own static variables, to state that the
    helpers own and use none. *)

From Stdlib Require Import ZArith List Lia.
From stdpp Require Import base option list gmap strings.

Local Open Scope Z_scope.

(** ** Machine integers and handles *)

(** [jint], [jsize] and C [int] are 32-bit signed; [unsigned int] is 32-bit
    unsigned.  Values are kept in [Z] and conversions are written out. *)
Abbreviation jint := Z (only parsing).
Abbreviation jsize := Z (only parsing).

Definition jint_min : Z := - 2 ^ 31.
Definition jint_max : Z := 2 ^ 31 - 1.

Definition jint_range (z : Z) : Prop := jint_min <= z <= jint_max.
Definition uint_range (z : Z) : Prop := 0 <= z < 2 ^ 32.

(** Conversion of an integer to a 32-bit signed type: reduction modulo 2^32
    into [jint_min .. jint_max]. *)
Definition to_jint (z : Z) : jint := (z + 2 ^ 31) mod 2 ^ 32 - 2 ^ 31.

(** [JNIEnv *], [JavaVM *], [jobject], [jclass], [jmethodID], [jbyteArray],
    [jbyte *] and the out-parameter slots are all addresses or opaque
    references; [NULL] is 0. *)
Abbreviation ptr := Z (only parsing).
Definition NULL : ptr := 0.

(** From [jni.h]: [#define JNI_VERSION_1_6 0x00010006]. *)
Definition JNI_VERSION_1_6 : jint := 0x00010006.

(** [Helpers.h]: [typedef struct { const signed char *data; unsigned int count; } CData;] *)
Record CData := mkCData {
  data : ptr;
  count : Z
}.

(** ** Calls into the JNI function tables *)

(** One constructor per member function the helpers call, indexed by the C
    type of its result.  [Env_*] are members of [JNIEnv], [VM_*] of
    [JavaVM]. *)
Inductive jni_call : Type → Type :=
  | Env_GetJavaVM (env : ptr) (vm : ptr) : jni_call jint
  | VM_GetEnv (vm : ptr) (p_env : ptr) (version : jint) : jni_call jint
  | VM_AttachCurrentThread (vm : ptr) (p_env : ptr) (thr_args : ptr) : jni_call jint
  | VM_DetachCurrentThread (vm : ptr) : jni_call jint
  | Env_GetObjectClass (env : ptr) (obj : ptr) : jni_call ptr
  | Env_GetMethodID (env : ptr) (clazz : ptr) (name sig : string) : jni_call ptr
  | Env_CallVoidMethod (env : ptr) (obj : ptr) (methodID : ptr) : jni_call unit
  | Env_GetArrayLength (env : ptr) (array : ptr) : jni_call jsize
  | Env_GetByteArrayElements (env : ptr) (array : ptr) (isCopy : ptr) : jni_call ptr
  | Env_NewByteArray (env : ptr) (len : jsize) : jni_call ptr
  | Env_SetByteArrayRegion (env : ptr) (array : ptr) (start len : jsize) (buf : ptr)
      : jni_call unit.

(** The names of the entry points, for counting calls. *)
Inductive entry :=
  | GetJavaVM_e | GetEnv_e | AttachCurrentThread_e | DetachCurrentThread_e
  | GetObjectClass_e | GetMethodID_e | CallVoidMethod_e | GetArrayLength_e
  | GetByteArrayElements_e | NewByteArray_e | SetByteArrayRegion_e.

Global Instance entry_eq_dec : EqDecision entry.
Proof. solve_decision. Defined.

Definition entry_of {X} (c : jni_call X) : entry :=
  match c with
  | Env_GetJavaVM _ _ => GetJavaVM_e
  | VM_GetEnv _ _ _ => GetEnv_e
  | VM_AttachCurrentThread _ _ _ => AttachCurrentThread_e
  | VM_DetachCurrentThread _ => DetachCurrentThread_e
  | Env_GetObjectClass _ _ => GetObjectClass_e
  | Env_GetMethodID _ _ _ _ => GetMethodID_e
  | Env_CallVoidMethod _ _ _ => CallVoidMethod_e
  | Env_GetArrayLength _ _ => GetArrayLength_e
  | Env_GetByteArrayElements _ _ _ => GetByteArrayElements_e
  | Env_NewByteArray _ _ => NewByteArray_e
  | Env_SetByteArrayRegion _ _ _ _ _ => SetByteArrayRegion_e
  end.

(** ** Helper bodies as programs over JNI calls *)

Inductive prog (A : Type) : Type :=
  | Ret (a : A)
  | Call {X : Type} (c : jni_call X) (k : X → prog A).
Arguments Ret {A} a.
Arguments Call {A X} c k.

Fixpoint prog_bind {A B} (f : A → prog B) (p : prog A) : prog B :=
  match p with
  | Ret a => f a
  | Call c k => Call c (λ x, prog_bind f (k x))
  end.

Global Instance prog_mret : MRet prog := λ A a, Ret a.
Global Instance prog_mbind : MBind prog := λ A B f p, prog_bind f p.

Definition call {X} (c : jni_call X) : prog X := Call c Ret.

(** A call that was made, with the answer it got. *)
Inductive event : Type :=
  | Ev {X : Type} (c : jni_call X) (r : X).

Definition ev_entry (e : event) : entry :=
  match e with Ev c _ => entry_of c end.

(** How often entry point [e] occurs in a trace. *)
Definition calls_to (e : entry) (t : list event) : nat :=
  length (filter (λ ev, ev_entry ev = e) t).

(** A runtime with state [W] answers every call and moves to a next state. *)
Definition runtime (W : Type) : Type := ∀ X, jni_call X → W → X * W.

(** The outcome of running a helper: returned value, final runtime state and
    the calls made, oldest first. *)
Record outcome (A W : Type) := mkOutcome {
  value : A;
  final : W;
  trace : list event
}.
Arguments mkOutcome {A W} value final trace.
Arguments value {A W} o.
Arguments final {A W} o.
Arguments trace {A W} o.

Fixpoint run {W A} (rt : runtime W) (p : prog A) (s : W) : outcome A W :=
  match p with
  | Ret a => mkOutcome a s []
  | Call c k =>
      let '(r, s') := rt _ c s in
      let o := run rt (k r) s' in
      mkOutcome (value o) (final o) (Ev c r :: trace o)
  end.

(** ** Helpers.cpp *)

(** [void GetJVM(JNIEnv *env, JavaVM **vm) { env->GetJavaVM(vm); }] *)
Definition GetJVM (env : ptr) (vm : ptr) : prog unit :=
  _ ← call (Env_GetJavaVM env vm); mret tt.

(** [void GetJNIEnv(JavaVM *vm, JNIEnv **p_env)
       { vm->GetEnv((void** )p_env, JNI_VERSION_1_6); }] *)
Definition GetJNIEnv (vm : ptr) (p_env : ptr) : prog unit :=
  _ ← call (VM_GetEnv vm p_env JNI_VERSION_1_6); mret tt.

(** [void AttachCurrentThread(JavaVM *vm, JNIEnv **p_env)
       { vm->AttachCurrentThread(p_env, NULL); }] *)
Definition AttachCurrentThread (vm : ptr) (p_env : ptr) : prog unit :=
  _ ← call (VM_AttachCurrentThread vm p_env NULL); mret tt.

(** [void DetachCurrentThread(JavaVM *vm) { vm->DetachCurrentThread(); }] *)
Definition DetachCurrentThread (vm : ptr) : prog unit :=
  _ ← call (VM_DetachCurrentThread vm); mret tt.

(** [void CallVoidMethod(JNIEnv *env, jobject thisClass, const char *name, const char *sig) {
       jclass jc = env->GetObjectClass(thisClass);
       jmethodID midCallBack = env->GetMethodID(jc, name, sig);
       env->CallVoidMethod(thisClass, midCallBack); }] *)
Definition CallVoidMethod (env : ptr) (thisClass : ptr) (name sig : string) : prog unit :=
  jc ← call (Env_GetObjectClass env thisClass);
  midCallBack ← call (Env_GetMethodID env jc name sig);
  call (Env_CallVoidMethod env thisClass midCallBack).

(** [int GetArrayLength(JNIEnv *env, jclass thisClass, jbyteArray bArray) {
       int len = env->GetArrayLength(bArray);
       return len; }]
    [jsize] and [int] are the same 32-bit signed type, so the initialisation
    of [len] converts nothing. *)
Definition GetArrayLength (env : ptr) (thisClass : ptr) (bArray : ptr) : prog Z :=
  len ← call (Env_GetArrayLength env bArray);
  mret len.

(** [jbyte *GetByteArrayElements(JNIEnv *env, jclass thisClass, jbyteArray bArray) {
       auto data = env->GetByteArrayElements(bArray, 0);
       return data; }] *)
Definition GetByteArrayElements (env : ptr) (thisClass : ptr) (bArray : ptr) : prog ptr :=
  data ← call (Env_GetByteArrayElements env bArray 0);
  mret data.

(** [jbyteArray data_SwiftToJava(JNIEnv *env, CData *data) {
       jbyteArray ret = env->NewByteArray(data->count);
       if (ret == NULL) { return NULL; }
       env->SetByteArrayRegion(ret, 0, data->count, data->data);
       return ret; }]
    [data->count] is [unsigned int] and both parameters it is passed for are
    [jsize]: each use converts it with [to_jint].  The struct behind [data]
    is the caller's and is read as a value. *)
Definition data_SwiftToJava (env : ptr) (d : CData) : prog ptr :=
  ret ← call (Env_NewByteArray env (to_jint (count d)));
  if bool_decide (ret = NULL) then mret NULL
  else
    _ ← call (Env_SetByteArrayRegion env ret 0 (to_jint (count d)) (data d));
    mret ret.

(** ** A reference runtime

    [Jvm] models the entry points above after the JNI specification: a
    managed heap of byte arrays with bounded capacity, native memory for
    byte buffers and for pointer-sized out slots, the attachment of the
    calling thread, and a table of classes and methods.  An entry point
    that fails by throwing leaves the exception pending.  Where the
    contract of an entry point leaves the outcome undefined (attaching an
    attached thread, detaching a detached one, invoking a null method
    identifier) the model only marks the state as [off_contract]; the
    answer and the state then carry no meaning, and no theorem speaks
    about them. *)
Module Jvm.

Definition JNI_OK : jint := 0.
Definition JNI_ERR : jint := -1.
Definition JNI_EDETACHED : jint := -2.
Definition JNI_EVERSION : jint := -3.
Definition JNI_TRUE : Z := 1.

(** The exceptions the modelled entry points throw. *)
Inductive throwable :=
  | OutOfMemoryError
  | NegativeArraySizeException
  | ArrayIndexOutOfBoundsException
  | NoSuchMethodError.

Record state := mkState {
  bytes : gmap Z Z;            (* native memory: one signed char per address *)
  slots : gmap Z Z;            (* native memory: pointer-sized cells *)
  next_addr : Z;               (* where the runtime places its next native copy *)
  arrays : gmap Z (list Z);    (* managed byte arrays, by reference *)
  next_ref : Z;                (* the reference the next allocation returns *)
  capacity : Z;                (* managed heap left *)
  the_vm : Z;                  (* the JavaVM of the process *)
  thread_env : option Z;       (* JNIEnv of the calling thread, when attached *)
  spare_env : Z;               (* JNIEnv handed out by the next attach; NULL when none *)
  classes : gmap Z Z;          (* class of each object *)
  methods : gmap (Z * string * string) Z;
  invoked : list (Z * Z);      (* void methods invoked so far: object, method *)
  pending : option throwable;  (* the exception thrown and not yet cleared *)
  off_contract : bool          (* an entry point was used outside its contract *)
}.

Definition set_bytes (m : gmap Z Z) (s : state) : state :=
  mkState m (slots s) (next_addr s) (arrays s) (next_ref s) (capacity s)
          (the_vm s) (thread_env s) (spare_env s) (classes s) (methods s) (invoked s)
          (pending s) (off_contract s).
Definition set_slots (m : gmap Z Z) (s : state) : state :=
  mkState (bytes s) m (next_addr s) (arrays s) (next_ref s) (capacity s)
          (the_vm s) (thread_env s) (spare_env s) (classes s) (methods s) (invoked s)
          (pending s) (off_contract s).
Definition set_next_addr (a : Z) (s : state) : state :=
  mkState (bytes s) (slots s) a (arrays s) (next_ref s) (capacity s)
          (the_vm s) (thread_env s) (spare_env s) (classes s) (methods s) (invoked s)
          (pending s) (off_contract s).
Definition set_arrays (m : gmap Z (list Z)) (s : state) : state :=
  mkState (bytes s) (slots s) (next_addr s) m (next_ref s) (capacity s)
          (the_vm s) (thread_env s) (spare_env s) (classes s) (methods s) (invoked s)
          (pending s) (off_contract s).
Definition set_next_ref (r : Z) (s : state) : state :=
  mkState (bytes s) (slots s) (next_addr s) (arrays s) r (capacity s)
          (the_vm s) (thread_env s) (spare_env s) (classes s) (methods s) (invoked s)
          (pending s) (off_contract s).
Definition set_capacity (c : Z) (s : state) : state :=
  mkState (bytes s) (slots s) (next_addr s) (arrays s) (next_ref s) c
          (the_vm s) (thread_env s) (spare_env s) (classes s) (methods s) (invoked s)
          (pending s) (off_contract s).
Definition set_thread_env (e : option Z) (s : state) : state :=
  mkState (bytes s) (slots s) (next_addr s) (arrays s) (next_ref s) (capacity s)
          (the_vm s) e (spare_env s) (classes s) (methods s) (invoked s)
          (pending s) (off_contract s).
Definition set_invoked (l : list (Z * Z)) (s : state) : state :=
  mkState (bytes s) (slots s) (next_addr s) (arrays s) (next_ref s) (capacity s)
          (the_vm s) (thread_env s) (spare_env s) (classes s) (methods s) l
          (pending s) (off_contract s).
Definition throw (t : throwable) (s : state) : state :=
  mkState (bytes s) (slots s) (next_addr s) (arrays s) (next_ref s) (capacity s)
          (the_vm s) (thread_env s) (spare_env s) (classes s) (methods s) (invoked s)
          (Some t) (off_contract s).
Definition leave_contract (s : state) : state :=
  mkState (bytes s) (slots s) (next_addr s) (arrays s) (next_ref s) (capacity s)
          (the_vm s) (thread_env s) (spare_env s) (classes s) (methods s) (invoked s)
          (pending s) true.

(** Reading [n] consecutive signed chars at [p]; [None] when a cell is
    not mapped. *)
Fixpoint read_bytes (m : gmap Z Z) (p : Z) (n : nat) : option (list Z) :=
  match n with
  | O => Some []
  | S n' =>
      match m !! p, read_bytes m (p + 1) n' with
      | Some b, Some bs => Some (b :: bs)
      | _, _ => None
      end
  end.

(** Writing a list of signed chars at [p], lowest address first. *)
Fixpoint write_bytes (p : Z) (bs : list Z) (m : gmap Z Z) : gmap Z Z :=
  match bs with
  | [] => m
  | b :: bs' => write_bytes (p + 1) bs' (<[p := b]> m)
  end.

Definition supported_version (v : jint) : bool :=
  bool_decide (v = 0x00010001) || bool_decide (v = 0x00010002)
  || bool_decide (v = 0x00010004) || bool_decide (v = 0x00010006).

Definition GetJavaVM (vm : ptr) (s : state) : jint * state :=
  (JNI_OK, set_slots (<[vm := the_vm s]> (slots s)) s).

Definition GetEnv (p_env : ptr) (version : jint) (s : state) : jint * state :=
  match thread_env s with
  | None => (JNI_EDETACHED, set_slots (<[p_env := NULL]> (slots s)) s)
  | Some e =>
      if supported_version version
      then (JNI_OK, set_slots (<[p_env := e]> (slots s)) s)
      else (JNI_EVERSION, set_slots (<[p_env := NULL]> (slots s)) s)
  end.

(** Attaching a thread that is attached already is outside the contract. *)
Definition AttachCurrentThread (p_env : ptr) (s : state) : jint * state :=
  match thread_env s with
  | Some _ => (JNI_ERR, leave_contract s)
  | None =>
      if bool_decide (spare_env s = NULL) then (JNI_ERR, s)
      else (JNI_OK,
            set_thread_env (Some (spare_env s))
              (set_slots (<[p_env := spare_env s]> (slots s)) s))
  end.

(** Detaching a thread that is not attached is outside the contract. *)
Definition DetachCurrentThread (s : state) : jint * state :=
  match thread_env s with
  | Some _ => (JNI_OK, set_thread_env None s)
  | None => (JNI_ERR, leave_contract s)
  end.

Definition GetObjectClass (obj : ptr) (s : state) : ptr * state :=
  (default NULL (classes s !! obj), s).

(** A method that is not found yields [NULL] and a pending
    [NoSuchMethodError]. *)
Definition GetMethodID (clazz : ptr) (name sig : string) (s : state) : ptr * state :=
  match methods s !! (clazz, name, sig) with
  | Some methodID => (methodID, s)
  | None => (NULL, throw NoSuchMethodError s)
  end.

(** Invoking a null method identifier is outside the contract. *)
Definition CallVoidMethod (obj methodID : ptr) (s : state) : unit * state :=
  if bool_decide (methodID = NULL) then (tt, leave_contract s)
  else (tt, set_invoked (invoked s ++ [(obj, methodID)]) s).

Definition GetArrayLength (array : ptr) (s : state) : jsize * state :=
  (default 0 (Z.of_nat ∘ length <$> arrays s !! array), s).

(** The runtime hands out a native copy of the elements and reports so
    through [isCopy] when the caller passed a slot for it. *)
Definition GetByteArrayElements (array isCopy : ptr) (s : state) : ptr * state :=
  match arrays s !! array with
  | None => (NULL, s)
  | Some elems =>
      let p := next_addr s in
      let m := write_bytes p elems (bytes s) in
      let m' := if bool_decide (isCopy = NULL) then m else <[isCopy := JNI_TRUE]> m in
      (p, set_next_addr (p + Z.of_nat (length elems) + 1) (set_bytes m' s))
  end.

(** The exception a refused allocation of [len] elements throws. *)
Definition refusal (len : jsize) : throwable :=
  if bool_decide (len < 0) then NegativeArraySizeException else OutOfMemoryError.

(** A negative length or an exhausted heap yields [NULL], with the
    exception pending. *)
Definition NewByteArray (len : jsize) (s : state) : ptr * state :=
  if bool_decide (0 ≤ len ∧ len < capacity s) then
    (next_ref s,
     set_capacity (capacity s - len - 1)
       (set_next_ref (next_ref s + 1)
          (set_arrays (<[next_ref s := replicate (Z.to_nat len) 0]> (arrays s)) s)))
  else (NULL, throw (refusal len) s).

(** A region outside the array is refused with a pending
    [ArrayIndexOutOfBoundsException], and the array stays as it is. *)
Definition SetByteArrayRegion (array : ptr) (start len : jsize) (buf : ptr) (s : state)
  : unit * state :=
  match arrays s !! array with
  | None => (tt, s)
  | Some elems =>
      if bool_decide (0 ≤ start ∧ 0 ≤ len ∧ start + len ≤ Z.of_nat (length elems)) then
        match read_bytes (bytes s) buf (Z.to_nat len) with
        | None => (tt, s)
        | Some bs =>
            (tt, set_arrays (<[array :=
                    take (Z.to_nat start) elems ++ bs
                      ++ drop (Z.to_nat (start + len)) elems]> (arrays s)) s)
        end
      else (tt, throw ArrayIndexOutOfBoundsException s)
  end.

Definition step : runtime state := λ X c,
  match c in jni_call X return state → X * state with
  | Env_GetJavaVM _ vm => GetJavaVM vm
  | VM_GetEnv _ p_env version => GetEnv p_env version
  | VM_AttachCurrentThread _ p_env _ => AttachCurrentThread p_env
  | VM_DetachCurrentThread _ => DetachCurrentThread
  | Env_GetObjectClass _ obj => GetObjectClass obj
  | Env_GetMethodID _ clazz name sig => GetMethodID clazz name sig
  | Env_CallVoidMethod _ obj methodID => CallVoidMethod obj methodID
  | Env_GetArrayLength _ array => GetArrayLength array
  | Env_GetByteArrayElements _ array isCopy => GetByteArrayElements array isCopy
  | Env_NewByteArray _ len => NewByteArray len
  | Env_SetByteArrayRegion _ array start len buf => SetByteArrayRegion array start len buf
  end.

(** Array lengths fit [jsize], and the heap never holds more than a
    [jsize] can count. *)
Definition wf (s : state) : Prop :=
  capacity s ≤ jint_max + 1 ∧
  ∀ a elems, arrays s !! a = Some elems → Z.of_nat (length elems) ≤ jint_max.

(** References are handed out in increasing order, starting above [NULL]:
    every array of the heap has a reference between [NULL] and [next_ref]. *)
Definition fresh (s : state) : Prop :=
  0 < next_ref s ∧ ∀ a, is_Some (arrays s !! a) → 0 < a < next_ref s.

(** The state after a successful allocation of [n] elements. *)
Definition allocated (n : Z) (s : state) : state :=
  set_capacity (capacity s - n - 1)
    (set_next_ref (next_ref s + 1)
       (set_arrays (<[next_ref s := replicate (Z.to_nat n) 0]> (arrays s)) s)).

End Jvm.

(** ** The exported helpers as one family *)

Inductive helper :=
  | H_GetJVM (env vm : ptr)
  | H_GetJNIEnv (vm p_env : ptr)
  | H_AttachCurrentThread (vm p_env : ptr)
  | H_DetachCurrentThread (vm : ptr)
  | H_CallVoidMethod (env thisClass : ptr) (name sig : string)
  | H_GetArrayLength (env thisClass bArray : ptr)
  | H_GetByteArrayElements (env thisClass bArray : ptr)
  | H_data_SwiftToJava (env : ptr) (d : CData).

(** The C result type of each helper. *)
Definition result (h : helper) : Type :=
  match h with
  | H_GetJVM _ _ | H_GetJNIEnv _ _ | H_AttachCurrentThread _ _
  | H_DetachCurrentThread _ | H_CallVoidMethod _ _ _ _ => unit
  | H_GetArrayLength _ _ _ | H_GetByteArrayElements _ _ _ | H_data_SwiftToJava _ _ => Z
  end.

Definition body (h : helper) : prog (result h) :=
  match h with
  | H_GetJVM env vm => GetJVM env vm
  | H_GetJNIEnv vm p_env => GetJNIEnv vm p_env
  | H_AttachCurrentThread vm p_env => AttachCurrentThread vm p_env
  | H_DetachCurrentThread vm => DetachCurrentThread vm
  | H_CallVoidMethod env thisClass name sig => CallVoidMethod env thisClass name sig
  | H_GetArrayLength env thisClass bArray => GetArrayLength env thisClass bArray
  | H_GetByteArrayElements env thisClass bArray => GetByteArrayElements env thisClass bArray
  | H_data_SwiftToJava env d => data_SwiftToJava env d
  end.

(** The entry point a helper exists to forward to. *)
Definition entry_point (h : helper) : entry :=
  match h with
  | H_GetJVM _ _ => GetJavaVM_e
  | H_GetJNIEnv _ _ => GetEnv_e
  | H_AttachCurrentThread _ _ => AttachCurrentThread_e
  | H_DetachCurrentThread _ => DetachCurrentThread_e
  | H_CallVoidMethod _ _ _ _ => CallVoidMethod_e
  | H_GetArrayLength _ _ _ => GetArrayLength_e
  | H_GetByteArrayElements _ _ _ => GetByteArrayElements_e
  | H_data_SwiftToJava _ _ => NewByteArray_e
  end.

(** ** The helpers inside their translation unit

    A [prog] can do nothing but call the runtime.  To say that the helpers
    keep nothing between calls, their bodies are given once more as
    [TU.code], which may in addition read and write variables of static
    storage duration owned by the translation unit; such variables are
    zero-initialised and outlive every call.  [Helpers.cpp] declares none,
    and no helper body names one. *)
Module TU.

Inductive code (A : Type) : Type :=
  | Done (a : A)
  | Jni {X : Type} (c : jni_call X) (k : X → code A)
  | ReadStatic (x : string) (k : Z → code A)
  | WriteStatic (x : string) (v : Z) (k : code A).
Arguments Done {A} a.
Arguments Jni {A X} c k.
Arguments ReadStatic {A} x k.
Arguments WriteStatic {A} x v k.

Fixpoint code_bind {A B} (f : A → code B) (p : code A) : code B :=
  match p with
  | Done a => f a
  | Jni c k => Jni c (λ r, code_bind f (k r))
  | ReadStatic x k => ReadStatic x (λ v, code_bind f (k v))
  | WriteStatic x v k => WriteStatic x v (code_bind f k)
  end.

Global Instance code_mret : MRet code := λ A a, Done a.
Global Instance code_mbind : MBind code := λ A B f p, code_bind f p.

Definition jni {X} (c : jni_call X) : code X := Jni c Done.

(** Running code against a runtime in state [s], with the statics of the
    translation unit holding [g].  The outcome's final state pairs the
    runtime's state with the statics. *)
Fixpoint exec {W A} (rt : runtime W) (p : code A) (s : W) (g : gmap string Z)
  : outcome A (W * gmap string Z) :=
  match p with
  | Done a => mkOutcome a (s, g) []
  | Jni c k =>
      let '(r, s') := rt _ c s in
      let o := exec rt (k r) s' g in
      mkOutcome (value o) (final o) (Ev c r :: trace o)
  | ReadStatic x k => exec rt (k (default 0 (g !! x))) s g
  | WriteStatic x v k => exec rt k s (<[x := v]> g)
  end.

(** The bodies of [Helpers.cpp], line for line as above. *)
Definition GetJVM (env : ptr) (vm : ptr) : code unit :=
  _ ← jni (Env_GetJavaVM env vm); mret tt.

Definition GetJNIEnv (vm : ptr) (p_env : ptr) : code unit :=
  _ ← jni (VM_GetEnv vm p_env JNI_VERSION_1_6); mret tt.

Definition AttachCurrentThread (vm : ptr) (p_env : ptr) : code unit :=
  _ ← jni (VM_AttachCurrentThread vm p_env NULL); mret tt.

Definition DetachCurrentThread (vm : ptr) : code unit :=
  _ ← jni (VM_DetachCurrentThread vm); mret tt.

Definition CallVoidMethod (env : ptr) (thisClass : ptr) (name sig : string) : code unit :=
  jc ← jni (Env_GetObjectClass env thisClass);
  midCallBack ← jni (Env_GetMethodID env jc name sig);
  jni (Env_CallVoidMethod env thisClass midCallBack).

Definition GetArrayLength (env : ptr) (thisClass : ptr) (bArray : ptr) : code Z :=
  len ← jni (Env_GetArrayLength env bArray);
  mret len.

Definition GetByteArrayElements (env : ptr) (thisClass : ptr) (bArray : ptr) : code ptr :=
  data ← jni (Env_GetByteArrayElements env bArray 0);
  mret data.

Definition data_SwiftToJava (env : ptr) (d : CData) : code ptr :=
  ret ← jni (Env_NewByteArray env (to_jint (count d)));
  if bool_decide (ret = NULL) then mret NULL
  else
    _ ← jni (Env_SetByteArrayRegion env ret 0 (to_jint (count d)) (data d));
    mret ret.

Definition body (h : helper) : code (result h) :=
  match h with
  | H_GetJVM env vm => GetJVM env vm
  | H_GetJNIEnv vm p_env => GetJNIEnv vm p_env
  | H_AttachCurrentThread vm p_env => AttachCurrentThread vm p_env
  | H_DetachCurrentThread vm => DetachCurrentThread vm
  | H_CallVoidMethod env thisClass name sig => CallVoidMethod env thisClass name sig
  | H_GetArrayLength env thisClass bArray => GetArrayLength env thisClass bArray
  | H_GetByteArrayElements env thisClass bArray => GetByteArrayElements env thisClass bArray
  | H_data_SwiftToJava env d => data_SwiftToJava env d
  end.

End TU.

(** Whether a helper returned [NULL] where it returns an array. *)
Definition null_result (h : helper) : result h → bool :=
  match h as h0 return result h0 → bool with
  | H_data_SwiftToJava _ _ => λ v, bool_decide (v = NULL)
  | _ => λ _, false
  end.

(** The entry points a call of a helper goes through, in order, read off
    [Helpers.cpp]; [data_SwiftToJava] stops after the allocation when it
    returns [NULL]. *)
Definition script (h : helper) (returned_null : bool) : list entry :=
  match h with
  | H_GetJVM _ _ => [GetJavaVM_e]
  | H_GetJNIEnv _ _ => [GetEnv_e]
  | H_AttachCurrentThread _ _ => [AttachCurrentThread_e]
  | H_DetachCurrentThread _ => [DetachCurrentThread_e]
  | H_CallVoidMethod _ _ _ _ => [GetObjectClass_e; GetMethodID_e; CallVoidMethod_e]
  | H_GetArrayLength _ _ _ => [GetArrayLength_e]
  | H_GetByteArrayElements _ _ _ => [GetByteArrayElements_e]
  | H_data_SwiftToJava _ _ =>
      if returned_null then [NewByteArray_e] else [NewByteArray_e; SetByteArrayRegion_e]
  end.

(** A helper hands the runtime's status for call [c] to its caller when the
    status can be read off the value the helper returns. *)
Definition status_returned {W} (rt : runtime W) (op : prog unit) (c : jni_call jint)
    (states : list W) : Prop :=
  ∃ observe : unit → jint,
    ∀ s, s ∈ states → observe (value (run rt op s)) = (rt _ c s).1.

(** ** Concrete runtime states *)

Module Demo.
Import Jvm.

Definition vm0 : ptr := 16.
Definition env0 : ptr := 32.
Definition slot0 : ptr := 64.
Definition buf0 : ptr := 1000.
Definition cls0 : ptr := 7.

(** The calling thread is attached, the heap has room, and the native
    buffer [0x41, 0x00, 0xFF] sits at [buf0]. *)
Definition attached : state :=
  mkState (write_bytes buf0 [65; 0; -1] ∅) ∅ 4096 ∅ 1 1024
          vm0 (Some env0) env0 ∅ ∅ [] None false.

(** The same process before the thread attached. *)
Definition detached : state := set_thread_env None attached.

(** The same process with no managed heap left. *)
Definition exhausted : state := set_capacity 0 attached.

(** A heap that already holds the array [0x41, 0x00, 0xFF] at reference 5. *)
Definition with_array : state :=
  set_next_ref 6 (set_arrays {[ 5 := [65; 0; -1] ]} attached).

(** The object 9 has class 3, whose method [run] of signature [()V] has
    the identifier 40. *)
Definition with_object : state :=
  mkState ∅ ∅ 4096 ∅ 1 1024 vm0 (Some env0) env0
          {[ 9 := 3 ]} {[ (3, "run", "()V") := 40 ]} [] None false.

(** For contrast, and no part of [Helpers.cpp]: a length helper that
    remembers its first answer in a static of the translation unit. *)
Definition remembering_length (env bArray : ptr) : TU.code Z :=
  TU.ReadStatic "len" (λ seen,
    if bool_decide (seen = 0) then
      len ← TU.jni (Env_GetArrayLength env bArray);
      TU.WriteStatic "len" len (mret len)
    else mret seen).

Definition abc : CData := mkCData buf0 3.
Definition huge : CData := mkCData buf0 (2 ^ 32 - 1).

End Demo.

(** ** Running programs *)

Section Run.
Context {W : Type} (rt : runtime W).

(** Sequencing runs the second program from the state the first one left
    and appends its calls. *)
Lemma run_bind {A B} (p : prog A) (f : A → prog B) (s : W) :
  run rt (p ≫= f) s =
    let o1 := run rt p s in
    let o2 := run rt (f (value o1)) (final o1) in
    mkOutcome (value o2) (final o2) (trace o1 ++ trace o2).
Proof.
  revert s. induction p as [a | X c k IH]; intros s.
  - simpl. by destruct (run rt (f a) s).
  - change (Call c k ≫= f) with (Call c (λ x, k x ≫= f)).
    simpl. destruct (rt X c s) as [r s']. rewrite IH. reflexivity.
Qed.

Lemma calls_to_app (e : entry) (t1 t2 : list event) :
  calls_to e (t1 ++ t2) = (calls_to e t1 + calls_to e t2)%nat.
Proof. unfold calls_to. by rewrite filter_app, length_app. Qed.

(** Sequencing in a translation unit: the second piece of code starts from
    the runtime state and the statics the first one left. *)
Lemma exec_bind {A B} (p : TU.code A) (f : A → TU.code B) (s : W) (g : gmap string Z) :
  TU.exec rt (p ≫= f) s g =
    let o1 := TU.exec rt p s g in
    let o2 := TU.exec rt (f (value o1)) (final o1).1 (final o1).2 in
    mkOutcome (value o2) (final o2) (trace o1 ++ trace o2).
Proof.
  revert s g. induction p as [a | X c k IH | x k IH | x v k IH]; intros s g.
  - simpl. by destruct (TU.exec rt (f a) s g).
  - change (TU.Jni c k ≫= f) with (TU.Jni c (λ r, k r ≫= f)).
    simpl. destruct (rt X c s) as [r s']. rewrite IH. reflexivity.
  - change (TU.ReadStatic x k ≫= f) with (TU.ReadStatic x (λ v, k v ≫= f)).
    simpl. apply IH.
  - change (TU.WriteStatic x v k ≫= f) with (TU.WriteStatic x v (k ≫= f)).
    simpl. apply IH.
Qed.

(** No helper looks at the statics or changes them: run with statics [g],
    a helper does what it does with none, and hands [g] back. *)
Lemma exec_body_statics (h : helper) (s : W) (g : gmap string Z) :
  TU.exec rt (TU.body h) s g =
    let o := TU.exec rt (TU.body h) s ∅ in
    mkOutcome (value o) ((final o).1, g) (trace o).
Proof.
  destruct h; simpl;
    repeat match goal with
           | |- context [rt ?X ?c ?s] => destruct (rt X c s) as [? ?]; simpl
           | |- context [bool_decide ?P] => destruct (bool_decide P); simpl
           end; reflexivity.
Qed.

(** The entry points a helper goes through are those of its [script]. *)
Lemma exec_body_script (h : helper) (s : W) (g : gmap string Z) :
  let o := TU.exec rt (TU.body h) s g in
  map ev_entry (trace o) = script h (null_result h (value o)).
Proof.
  destruct h; simpl;
    repeat match goal with
           | |- context [rt ?X ?c ?s] => destruct (rt X c s) as [? ?]; simpl
           end; try reflexivity.
  case_bool_decide as Hr; simpl; [reflexivity |].
  destruct (rt _ _ _) as [? ?]. simpl. by rewrite bool_decide_eq_false_2.
Qed.

(** Counting in a trace is counting among its entry points. *)
Lemma calls_to_entries (e : entry) (t : list event) :
  calls_to e t = length (filter (λ e', e' = e) (map ev_entry t)).
Proof.
  unfold calls_to. induction t as [| ev t IH]; [done |].
  simpl. rewrite !filter_cons. case_decide; simpl; by rewrite IH.
Qed.

(** A helper's own entry point occurs once in its script. *)
Lemma script_entry_point (h : helper) (b : bool) :
  length (filter (λ e', e' = entry_point h) (script h b)) = 1%nat.
Proof. destruct h, b; reflexivity. Qed.

(** The helpers in [TU.code] are the helpers in [prog]. *)
Lemma exec_body_run (h : helper) (s : W) (g : gmap string Z) :
  TU.exec rt (TU.body h) s g =
    let o := run rt (body h) s in mkOutcome (value o) (final o, g) (trace o).
Proof.
  destruct h; simpl;
    repeat match goal with
           | |- context [rt ?X ?c ?s] => destruct (rt X c s) as [? ?]; simpl
           | |- context [bool_decide ?P] => destruct (bool_decide P); simpl
           end; reflexivity.
Qed.

End Run.

(** ** Conversion to [jsize] *)

Lemma to_jint_range (z : Z) : jint_range (to_jint z).
Proof.
  unfold jint_range, to_jint, jint_min, jint_max.
  pose proof (Z.mod_pos_bound (z + 2 ^ 31) (2 ^ 32)). lia.
Qed.

Lemma to_jint_small (z : Z) : jint_range z → to_jint z = z.
Proof.
  unfold jint_range, to_jint, jint_min, jint_max. intros Hz.
  rewrite Z.mod_small; lia.
Qed.

Lemma to_jint_large (z : Z) : jint_max < z → z < 2 ^ 32 → to_jint z = z - 2 ^ 32.
Proof.
  unfold to_jint, jint_max. intros H1 H2.
  replace (z + 2 ^ 31) with ((z - 2 ^ 31) + 1 * 2 ^ 32) by lia.
  rewrite Z.mod_add by lia. rewrite Z.mod_small; lia.
Qed.

(** ** The reference runtime: memory and heap lemmas *)

Module JvmFacts.
Import Jvm.

Lemma write_bytes_below (bs : list Z) (p q : Z) (m : gmap Z Z) :
  q < p → write_bytes p bs m !! q = m !! q.
Proof.
  revert p m. induction bs as [| b bs IH]; intros p m Hq; simpl; [done |].
  rewrite IH by lia. apply lookup_insert_ne. lia.
Qed.

(** What was written at [p] is what is read back from [p]. *)
Lemma read_write_bytes (bs : list Z) (p : Z) (m : gmap Z Z) :
  read_bytes (write_bytes p bs m) p (length bs) = Some bs.
Proof.
  revert p m. induction bs as [| b bs IH]; intros p m; simpl; [done |].
  rewrite write_bytes_below by lia.
  rewrite lookup_insert_eq, IH. reflexivity.
Qed.

Lemma read_bytes_length (m : gmap Z Z) (n : nat) (p : Z) (bs : list Z) :
  read_bytes m p n = Some bs → length bs = n.
Proof.
  revert p bs. induction n as [| n IH]; intros p bs; simpl.
  - by intros [= <-].
  - destruct (m !! p) as [b |]; [| done].
    destruct (read_bytes m (p + 1) n) as [bs' |] eqn:E; [| done].
    intros [= <-]. simpl. f_equal. by eapply IH.
Qed.

Lemma set_region_length (elems bs : list Z) (start len : Z) :
  0 ≤ start → 0 ≤ len → start + len ≤ Z.of_nat (length elems) →
  length bs = Z.to_nat len →
  length (take (Z.to_nat start) elems ++ bs ++ drop (Z.to_nat (start + len)) elems)
  = length elems.
Proof.
  intros Hs Hl Hb Hbs. rewrite !length_app, length_take, length_drop. lia.
Qed.

(** Entry points that neither allocate nor copy into an array. *)
Ltac light_call :=
  unfold GetJavaVM, GetEnv, AttachCurrentThread, DetachCurrentThread, GetObjectClass,
    GetMethodID, CallVoidMethod, GetArrayLength, GetByteArrayElements;
  repeat case_match; done.

(** Every entry point keeps array lengths within [jsize]. *)
Lemma step_wf {X} (c : jni_call X) (s : state) : wf s → wf (step X c s).2.
Proof.
  intros Hwf. destruct c; simpl; try light_call.
  - unfold NewByteArray. case_bool_decide as Hlen; [| done].
    destruct Hwf as [Hcap Harr]. split; simpl; [lia |].
    intros a elems. rewrite lookup_insert.
    case_decide; [| by apply Harr].
    intros [= <-]. rewrite length_replicate. lia.
  - unfold SetByteArrayRegion.
    destruct (arrays s !! array) as [elems |] eqn:Ha; [| done].
    case_bool_decide as Hb; [| done].
    destruct (read_bytes (bytes s) buf (Z.to_nat len)) as [bs |] eqn:Hr; [| done].
    destruct Hwf as [Hcap Harr]. split; simpl; [done |].
    intros a elems'. rewrite lookup_insert.
    case_decide; [| by apply Harr].
    intros [= <-]. apply read_bytes_length in Hr.
    rewrite set_region_length by lia. by eapply Harr.
Qed.

(** So does every program run from a well-formed state. *)
Lemma run_wf {A} (p : prog A) (s : state) : wf s → wf (final (run step p s)).
Proof.
  revert s. induction p as [a | X c k IH]; intros s Hwf; simpl; [done |].
  pose proof (step_wf c s Hwf) as Hwf'.
  destruct (step X c s) as [r s']. simpl in *. by apply IH.
Qed.

End JvmFacts.

(** ** Properties of the helpers, for every runtime *)

Section Helpers.
Context {W : Type} (rt : runtime W).

(** C2. When [NewByteArray] answers [NULL], [data_SwiftToJava] returns
    [NULL] at once: [NewByteArray] is the only call made, nothing is
    written into an array region, and the state is the one the allocator
    left.  The result is [NULL] exactly when the allocator answered
    [NULL]. *)
Theorem data_SwiftToJava_alloc_guard (s : W) (env : ptr) (d : CData) :
  let a := rt _ (Env_NewByteArray env (to_jint (count d))) s in
  let o := run rt (data_SwiftToJava env d) s in
  (value o = NULL ↔ a.1 = NULL) ∧
  (a.1 = NULL →
     trace o = [Ev (Env_NewByteArray env (to_jint (count d))) NULL] ∧
     calls_to SetByteArrayRegion_e (trace o) = 0%nat ∧
     final o = a.2).
Proof.
  simpl. destruct (rt _ (Env_NewByteArray env (to_jint (count d))) s) as [r s1].
  simpl. case_bool_decide as Hr; simpl.
  - subst r. done.
  - destruct (rt _ (Env_SetByteArrayRegion env r 0 (to_jint (count d)) (data d)) s1).
    simpl. done.
Qed.

(** C3, as amended.  [GetJNIEnv], [AttachCurrentThread] and
    [DetachCurrentThread] return nothing: each makes its one call into the
    runtime, drops the status the runtime answered, and leaves the state
    (with whatever the runtime wrote to the out slot) as the runtime left
    it. *)
Theorem thread_helpers_drop_status (s : W) (vm p_env : ptr) :
  run rt (GetJNIEnv vm p_env) s =
    (let a := rt _ (VM_GetEnv vm p_env JNI_VERSION_1_6) s in
     mkOutcome tt a.2 [Ev (VM_GetEnv vm p_env JNI_VERSION_1_6) a.1]) ∧
  run rt (AttachCurrentThread vm p_env) s =
    (let a := rt _ (VM_AttachCurrentThread vm p_env NULL) s in
     mkOutcome tt a.2 [Ev (VM_AttachCurrentThread vm p_env NULL) a.1]) ∧
  run rt (DetachCurrentThread vm) s =
    (let a := rt _ (VM_DetachCurrentThread vm) s in
     mkOutcome tt a.2 [Ev (VM_DetachCurrentThread vm) a.1]).
Proof.
  repeat split; simpl.
  - by destruct (rt _ (VM_GetEnv vm p_env JNI_VERSION_1_6) s).
  - by destruct (rt _ (VM_AttachCurrentThread vm p_env NULL) s).
  - by destruct (rt _ (VM_DetachCurrentThread vm) s).
Qed.

(** C4. [CallVoidMethod] makes three calls, in this order: the class of
    the target object, the method identifier looked up on that class by
    name and signature, and the invocation of that identifier on the
    object with no arguments.  Whatever identifier the lookup answered is
    passed on, [NULL] included, and the helper returns nothing. *)
Theorem CallVoidMethod_steps (s : W) (env obj : ptr) (name sig : string) :
  let a1 := rt _ (Env_GetObjectClass env obj) s in
  let a2 := rt _ (Env_GetMethodID env a1.1 name sig) a1.2 in
  let a3 := rt _ (Env_CallVoidMethod env obj a2.1) a2.2 in
  run rt (CallVoidMethod env obj name sig) s =
    mkOutcome tt a3.2
      [Ev (Env_GetObjectClass env obj) a1.1;
       Ev (Env_GetMethodID env a1.1 name sig) a2.1;
       Ev (Env_CallVoidMethod env obj a2.1) tt].
Proof.
  simpl. destruct (rt _ (Env_GetObjectClass env obj) s) as [jc s1]. simpl.
  destruct (rt _ (Env_GetMethodID env jc name sig) s1) as [mid s2]. simpl.
  by destruct (rt _ (Env_CallVoidMethod env obj mid) s2) as [[] s3].
Qed.

(** C6. [GetArrayLength] and [GetByteArrayElements] do not use their class
    handle: with any two class handles the returned value, the final state
    and the calls made are the same. *)
Theorem class_handle_unused (s : W) (env bArray : ptr) (cls1 cls2 : ptr) :
  run rt (GetArrayLength env cls1 bArray) s = run rt (GetArrayLength env cls2 bArray) s ∧
  run rt (GetByteArrayElements env cls1 bArray) s
  = run rt (GetByteArrayElements env cls2 bArray) s.
Proof. split; reflexivity. Qed.

(** C7. [GetByteArrayElements] makes one call, with a null [isCopy]
    argument, and returns the pointer the runtime answered. *)
Theorem GetByteArrayElements_no_hint (s : W) (env cls bArray : ptr) :
  let a := rt _ (Env_GetByteArrayElements env bArray NULL) s in
  run rt (GetByteArrayElements env cls bArray) s =
    mkOutcome a.1 a.2 [Ev (Env_GetByteArrayElements env bArray NULL) a.1].
Proof.
  unfold NULL. simpl. by destruct (rt _ (Env_GetByteArrayElements env bArray 0) s).
Qed.

(** C8. Every helper goes through exactly the entry points of its
    [script], each once and in that order, so its own entry point is
    reached exactly once; [data_SwiftToJava] copies exactly when it does not
    return [NULL].  No helper reads or writes a variable of the translation
    unit: the statics are as before, and value, runtime state and calls are
    the same whatever the statics hold.  A helper called after another
    therefore behaves as when called alone in the state the runtime was
    left in, and a helper called twice reaches its entry point twice. *)
Theorem helpers_single_shot_stateless (s : W) (g : gmap string Z) (h : helper) :
  let o := TU.exec rt (TU.body h) s g in
  map ev_entry (trace o) = script h (null_result h (value o)) ∧
  calls_to (entry_point h) (trace o) = 1%nat ∧
  (final o).2 = g ∧
  (∀ g', let o' := TU.exec rt (TU.body h) s g' in
         value o' = value o ∧ (final o').1 = (final o).1 ∧ trace o' = trace o) ∧
  (∀ h' g', let o2 := TU.exec rt (TU.body h ≫= λ _, TU.body h') s g in
            let alone := TU.exec rt (TU.body h') (final o).1 g' in
            value o2 = value alone ∧ (final o2).1 = (final alone).1 ∧
            (final o2).2 = g ∧ trace o2 = trace o ++ trace alone) ∧
  calls_to (entry_point h) (trace (TU.exec rt (TU.body h ≫= λ _, TU.body h) s g)) = 2%nat.
Proof.
  assert (Hone : ∀ s' g', calls_to (entry_point h)
                            (trace (TU.exec rt (TU.body h) s' g')) = 1%nat).
  { intros s' g'. rewrite calls_to_entries, (exec_body_script rt h s' g').
    apply script_entry_point. }
  cbv zeta. split; [apply (exec_body_script rt h s g) |]. split; [apply Hone |].
  split; [by rewrite exec_body_statics |]. split; [| split].
  - intros g'. rewrite (exec_body_statics rt h s g'), (exec_body_statics rt h s g). done.
  - intros h' g'. rewrite exec_bind. cbv zeta.
    rewrite (exec_body_statics rt h' (final _).1 (final _).2).
    rewrite (exec_body_statics rt h' (final _).1 g').
    rewrite (exec_body_statics rt h s g). done.
  - rewrite exec_bind. cbv zeta. cbn [trace]. by rewrite calls_to_app, !Hone.
Qed.

(** C9. [GetJNIEnv] takes a VM handle and an out slot and nothing else;
    the one call it makes asks for version [JNI_VERSION_1_6], which is
    0x00010006, whatever the arguments and the runtime. *)
Theorem GetJNIEnv_version_fixed (s : W) (vm p_env : ptr) :
  JNI_VERSION_1_6 = 65542 ∧
  ∃ status : jint,
    trace (run rt (GetJNIEnv vm p_env) s) = [Ev (VM_GetEnv vm p_env 65542) status].
Proof.
  split; [reflexivity |]. simpl.
  destruct (rt _ (VM_GetEnv vm p_env JNI_VERSION_1_6) s) as [st s1]. by exists st.
Qed.

(** C10. [data_SwiftToJava] passes [count], an [unsigned int], where a
    [jsize] is expected, for the allocation and for the copy alike.  The
    length the runtime sees is [count] reduced into the signed 32-bit
    range: [count] itself up to 2^31 - 1, and [count - 2^32], a negative
    number different from [count], above that. *)
Theorem data_SwiftToJava_count_conversion (s : W) (env : ptr) (d : CData) :
  uint_range (count d) →
  let n := to_jint (count d) in
  let o := run rt (data_SwiftToJava env d) s in
  (∃ r, head (trace o) = Some (Ev (Env_NewByteArray env n) r) ∧
        (r ≠ NULL →
         trace o = [Ev (Env_NewByteArray env n) r;
                    Ev (Env_SetByteArrayRegion env r 0 n (data d)) tt])) ∧
  jint_range n ∧
  (count d ≤ jint_max → n = count d) ∧
  (jint_max < count d → n = count d - 2 ^ 32 ∧ n < 0 ∧ n ≠ count d).
Proof.
  intros Hc n o. split; [| split; [| split]].
  - subst o n. simpl.
    destruct (rt _ (Env_NewByteArray env (to_jint (count d))) s) as [r s1].
    exists r. simpl. case_bool_decide as Hr; simpl; [done |].
    destruct (rt _ (Env_SetByteArrayRegion env r 0 (to_jint (count d)) (data d)) s1)
      as [[] s2].
    done.
  - apply to_jint_range.
  - intros Hle. apply to_jint_small.
    unfold uint_range, jint_range, jint_min in *. lia.
  - intros Hgt. unfold uint_range in Hc.
    subst n. rewrite to_jint_large by lia.
    unfold jint_max in Hgt. lia.
Qed.

End Helpers.

(** What C8 rules out can be written in [TU.code]: the remembering helper
    changes the statics, and called twice it asks the runtime once. *)
Example remembering_length_keeps_state :
  let o := TU.exec Jvm.step
             (Demo.remembering_length Demo.env0 5
                ≫= λ _, Demo.remembering_length Demo.env0 5)
             Demo.with_array ∅ in
  (final o).2 !! "len" = Some 3 ∧ calls_to GetArrayLength_e (trace o) = 1%nat.
Proof. split; reflexivity. Qed.

(** ** Properties against the reference runtime *)

(** C1. With the bytes [bs] of a native buffer of [count] elements at
    [data], and an allocation that succeeds, [data_SwiftToJava] allocates
    [count] elements, copies [count] elements from [data] to offset 0 and
    returns the new array.  The array then holds exactly [bs]; its length
    is [count]; and fetching its elements and reading them back gives
    [bs] again. *)
Theorem data_SwiftToJava_roundtrip (s : Jvm.state) (env : ptr) (d : CData) (bs : list Z) :
  uint_range (count d) →
  Jvm.read_bytes (Jvm.bytes s) (data d) (Z.to_nat (count d)) = Some bs →
  (Jvm.step _ (Env_NewByteArray env (to_jint (count d))) s).1 ≠ NULL →
  let o := run Jvm.step (data_SwiftToJava env d) s in
  value o ≠ NULL ∧
  trace o = [Ev (Env_NewByteArray env (count d)) (value o);
             Ev (Env_SetByteArrayRegion env (value o) 0 (count d) (data d)) tt] ∧
  Jvm.arrays (final o) !! value o = Some bs ∧
  Z.of_nat (length bs) = count d ∧
  (∀ cls, value (run Jvm.step (GetArrayLength env cls (value o)) (final o)) = count d) ∧
  (∀ cls, let e := run Jvm.step (GetByteArrayElements env cls (value o)) (final o) in
          Jvm.read_bytes (Jvm.bytes (final e)) (value e) (Z.to_nat (count d)) = Some bs).
Proof.
  intros Hc Hbuf Halloc.
  pose proof (JvmFacts.read_bytes_length _ _ _ _ Hbuf) as Hlenbs.
  simpl in Halloc. unfold Jvm.NewByteArray in Halloc.
  case_bool_decide as Hlen; [| done]. simpl in Halloc.
  assert (Hn : to_jint (count d) = count d).
  { destruct (Z_le_gt_dec (count d) jint_max) as [Hle | Hgt].
    - apply to_jint_small. unfold uint_range, jint_range, jint_min in *. lia.
    - unfold uint_range in Hc. rewrite to_jint_large in Hlen by lia. lia. }
  rewrite Hn in Hlen.
  assert (Hrun : run Jvm.step (data_SwiftToJava env d) s =
    mkOutcome (Jvm.next_ref s)
      (Jvm.set_arrays (<[Jvm.next_ref s := bs]>
         (<[Jvm.next_ref s := replicate (Z.to_nat (count d)) 0]> (Jvm.arrays s)))
         (Jvm.set_capacity (Jvm.capacity s - count d - 1)
            (Jvm.set_next_ref (Jvm.next_ref s + 1)
               (Jvm.set_arrays
                  (<[Jvm.next_ref s := replicate (Z.to_nat (count d)) 0]> (Jvm.arrays s))
                  s))))
      [Ev (Env_NewByteArray env (count d)) (Jvm.next_ref s);
       Ev (Env_SetByteArrayRegion env (Jvm.next_ref s) 0 (count d) (data d)) tt]).
  { simpl. rewrite Hn. unfold Jvm.NewByteArray. rewrite bool_decide_eq_true_2 by done.
    simpl. rewrite bool_decide_eq_false_2 by done. simpl.
    unfold Jvm.SetByteArrayRegion. simpl. rewrite lookup_insert_eq.
    rewrite length_replicate, bool_decide_eq_true_2 by lia.
    rewrite Hbuf. simpl.
    rewrite drop_ge by (rewrite length_replicate; lia).
    rewrite app_nil_r. reflexivity. }
  intros o. subst o. rewrite Hrun. simpl.
  split; [done |]. split; [done |].
  split; [by rewrite lookup_insert_eq |].
  split; [lia |]. split.
  - intros _. unfold Jvm.GetArrayLength. simpl. rewrite lookup_insert_eq. simpl. lia.
  - intros _. unfold Jvm.GetByteArrayElements. simpl. rewrite lookup_insert_eq. simpl.
    rewrite <- Hlenbs. apply JvmFacts.read_write_bytes.
Qed.

(** C5. For an array of [N] elements in a well-formed heap,
    [GetArrayLength] returns [N], a value of the signed 32-bit range, with
    the one call it forwards to, and the runtime state is as before. *)
Theorem GetArrayLength_exact (s : Jvm.state) (env cls bArray : ptr) (elems : list Z) (N : Z) :
  Jvm.wf s →
  Jvm.arrays s !! bArray = Some elems →
  Z.of_nat (length elems) = N →
  0 ≤ N →
  let o := run Jvm.step (GetArrayLength env cls bArray) s in
  value o = N ∧ jint_range (value o) ∧ final o = s ∧
  trace o = [Ev (Env_GetArrayLength env bArray) N].
Proof.
  intros [_ Hwf] Ha HN Hpos. simpl. rewrite Ha. simpl.
  specialize (Hwf _ _ Ha). unfold jint_range, jint_min.
  rewrite HN in *. repeat split; lia.
Qed.

(** C3 as stated fails.  Asked on an attached and on a detached thread,
    the runtime answers [JNI_OK] and [JNI_EDETACHED]; [GetJNIEnv] returns
    the same nothing both times, so no caller can read the status off
    it. *)
Lemma GetJNIEnv_status_not_returned :
  ¬ status_returned Jvm.step (GetJNIEnv Demo.vm0 Demo.slot0)
      (VM_GetEnv Demo.vm0 Demo.slot0 JNI_VERSION_1_6)
      [Demo.attached; Demo.detached].
Proof.
  intros [observe H].
  pose proof (H Demo.attached ltac:(set_solver)) as H1.
  pose proof (H Demo.detached ltac:(set_solver)) as H2.
  vm_compute in H1, H2. congruence.
Qed.

(** A lookup that finds no method answers [NULL] and leaves a
    [NoSuchMethodError] pending; [CallVoidMethod] still reaches the
    invocation, with that [NULL], which takes the runtime outside its
    contract. *)
Example CallVoidMethod_missing_method :
  let o := run Jvm.step (CallVoidMethod Demo.env0 9 "stop" "()V") Demo.with_object in
  trace o = [Ev (Env_GetObjectClass Demo.env0 9) 3;
             Ev (Env_GetMethodID Demo.env0 3 "stop" "()V") NULL;
             Ev (Env_CallVoidMethod Demo.env0 9 NULL) tt] ∧
  Jvm.pending (final o) = Some Jvm.NoSuchMethodError ∧
  Jvm.off_contract (final o) = true.
Proof. vm_compute. done. Qed.

(** ** The theorems at concrete inputs *)

Lemma with_array_wf : Jvm.wf Demo.with_array.
Proof.
  split; [vm_compute; discriminate |].
  intros a elems H. simpl in H.
  apply lookup_singleton_Some in H as [_ <-]. vm_compute. discriminate.
Qed.

(** The buffer [0x41, 0x00, 0xFF] with count 3 becomes an array of length 3
    holding those elements in order. *)
Lemma data_SwiftToJava_roundtrip_witness :
  uint_range (count Demo.abc) ∧
  Jvm.read_bytes (Jvm.bytes Demo.attached) (data Demo.abc) (Z.to_nat (count Demo.abc))
    = Some [65; 0; -1] ∧
  (Jvm.step _ (Env_NewByteArray Demo.env0 (to_jint (count Demo.abc))) Demo.attached).1 ≠ NULL ∧
  let o := run Jvm.step (data_SwiftToJava Demo.env0 Demo.abc) Demo.attached in
  Jvm.arrays (final o) !! value o = Some [65; 0; -1] ∧
  value (run Jvm.step (GetArrayLength Demo.env0 Demo.cls0 (value o)) (final o)) = 3.
Proof.
  assert (H1 : uint_range (count Demo.abc)) by (unfold uint_range; simpl; lia).
  assert (H2 : Jvm.read_bytes (Jvm.bytes Demo.attached) (data Demo.abc)
                 (Z.to_nat (count Demo.abc)) = Some [65; 0; -1]) by reflexivity.
  assert (H3 : (Jvm.step _ (Env_NewByteArray Demo.env0 (to_jint (count Demo.abc)))
                  Demo.attached).1 ≠ NULL) by (vm_compute; discriminate).
  pose proof (data_SwiftToJava_roundtrip Demo.attached Demo.env0 Demo.abc [65; 0; -1]
                H1 H2 H3) as T.
  cbv zeta in T. destruct T as (_ & _ & Harr & _ & Hlen & _).
  split; [exact H1 |]. split; [exact H2 |]. split; [exact H3 |]. cbv zeta.
  split; [exact Harr | exact (Hlen Demo.cls0)].
Defined.

(** With no heap left the allocator answers [NULL], and so does the
    helper, without a copy; the out-of-memory error stays pending. *)
Lemma data_SwiftToJava_alloc_guard_witness :
  (Jvm.step _ (Env_NewByteArray Demo.env0 (to_jint (count Demo.abc))) Demo.exhausted).1 = NULL ∧
  let o := run Jvm.step (data_SwiftToJava Demo.env0 Demo.abc) Demo.exhausted in
  value o = NULL ∧
  trace o = [Ev (Env_NewByteArray Demo.env0 (to_jint (count Demo.abc))) NULL] ∧
  calls_to SetByteArrayRegion_e (trace o) = 0%nat ∧
  final o = Jvm.throw Jvm.OutOfMemoryError Demo.exhausted.
Proof.
  assert (H : (Jvm.step _ (Env_NewByteArray Demo.env0 (to_jint (count Demo.abc)))
                 Demo.exhausted).1 = NULL) by reflexivity.
  pose proof (data_SwiftToJava_alloc_guard Jvm.step Demo.exhausted Demo.env0 Demo.abc) as T.
  cbv zeta in T. destruct T as [Hiff Hfail]. destruct (Hfail H) as (Ht & Hc & Hf).
  split; [exact H |]. cbv zeta.
  split; [exact (proj2 Hiff H) |]. split; [exact Ht |]. split; [exact Hc |].
  rewrite Hf. reflexivity.
Defined.

(** An array of three elements has length 3. *)
Lemma GetArrayLength_exact_witness :
  Jvm.wf Demo.with_array ∧
  Jvm.arrays Demo.with_array !! 5 = Some [65; 0; -1] ∧
  let o := run Jvm.step (GetArrayLength Demo.env0 Demo.cls0 5) Demo.with_array in
  value o = 3 ∧ jint_range (value o) ∧ final o = Demo.with_array.
Proof.
  assert (Ha : Jvm.arrays Demo.with_array !! 5 = Some [65; 0; -1]) by reflexivity.
  pose proof (GetArrayLength_exact Demo.with_array Demo.env0 Demo.cls0 5 [65; 0; -1] 3
                with_array_wf Ha eq_refl ltac:(lia)) as T.
  cbv zeta in T. destruct T as (Hv & Hr & Hf & _).
  split; [exact with_array_wf |]. split; [exact Ha |]. cbv zeta.
  split; [exact Hv |]. split; [exact Hr | exact Hf].
Defined.

(** A count of 2^32 - 1 reaches the runtime as the length -1. *)
Lemma data_SwiftToJava_count_conversion_witness :
  uint_range (count Demo.huge) ∧
  jint_max < count Demo.huge ∧
  to_jint (count Demo.huge) = -1 ∧
  ∃ r, head (trace (run Jvm.step (data_SwiftToJava Demo.env0 Demo.huge) Demo.attached))
       = Some (Ev (Env_NewByteArray Demo.env0 (-1)) r).
Proof.
  assert (H1 : uint_range (count Demo.huge)) by (unfold uint_range; simpl; lia).
  assert (H2 : jint_max < count Demo.huge) by (unfold jint_max; simpl; lia).
  pose proof (data_SwiftToJava_count_conversion Jvm.step Demo.attached Demo.env0 Demo.huge H1)
    as T.
  cbv zeta in T. destruct T as ([r [Hhead _]] & _ & _ & Hwrap).
  destruct (Hwrap H2) as (Hn & _ & _).
  split; [exact H1 |]. split; [exact H2 |].
  split; [rewrite Hn; reflexivity |].
  exists r. rewrite Hhead, Hn. reflexivity.
Defined.

(** ** Further properties of the helpers, for every runtime *)

Section Forwarding.
Context {W : Type} (rt : runtime W).

(** X1. [GetJVM] makes one call, [GetJavaVM] with the environment and the
    out slot it was given, returns nothing and drops the status; the state
    is the one the runtime left. *)
Theorem GetJVM_forwards (s : W) (env vm : ptr) :
  let a := rt _ (Env_GetJavaVM env vm) s in
  run rt (GetJVM env vm) s = mkOutcome tt a.2 [Ev (Env_GetJavaVM env vm) a.1].
Proof. simpl. by destruct (rt _ (Env_GetJavaVM env vm) s). Qed.

(** X2. No helper makes more than three calls, and a helper reaches no
    entry point but its own, with two exceptions: [CallVoidMethod] also
    looks up the class and the method, and [data_SwiftToJava] also copies
    into the array.  So only [data_SwiftToJava] allocates or writes an
    array, and only the thread helpers attach or detach. *)
Theorem helper_footprint (s : W) (h : helper) (e : entry) :
  let o := run rt (body h) s in
  (length (trace o) ≤ 3)%nat ∧
  (calls_to e (trace o) ≠ 0%nat →
   e = entry_point h
   ∨ (∃ env obj name sig, h = H_CallVoidMethod env obj name sig)
     ∧ (e = GetObjectClass_e ∨ e = GetMethodID_e)
   ∨ (∃ env d, h = H_data_SwiftToJava env d) ∧ e = SetByteArrayRegion_e).
Proof.
  destruct h; simpl;
    repeat match goal with
           | |- context [rt ?X ?c ?s] => destruct (rt X c s) as [? ?]; simpl
           | |- context [bool_decide ?P] => destruct (bool_decide P); simpl
           end;
    (split; [lia |]); destruct e; vm_compute; intros Hne;
    try (exfalso; apply Hne; reflexivity); eauto 10.
Qed.

End Forwarding.

(** ** Further properties against the reference runtime *)

Module JvmRuns.
Import Jvm.

(** Every entry point hands out references in increasing order. *)
Lemma step_fresh {X} (c : jni_call X) (s : state) : fresh s → fresh (step X c s).2.
Proof.
  intros Hf. destruct c; simpl; try JvmFacts.light_call.
  - unfold NewByteArray. case_bool_decide as Hlen; [| done].
    destruct Hf as [Hpos Hbelow]. split; simpl; [lia |].
    intros a. rewrite lookup_insert. case_decide as Ha.
    + subst a. lia.
    + intros Hsome. specialize (Hbelow a Hsome). lia.
  - unfold SetByteArrayRegion.
    destruct (arrays s !! array) as [elems |] eqn:Ha; [| done].
    case_bool_decide as Hb; [| done].
    destruct (read_bytes (bytes s) buf (Z.to_nat len)) as [bs |] eqn:Hr; [| done].
    destruct Hf as [Hpos Hbelow]. split; simpl; [done |].
    intros a. rewrite lookup_insert. case_decide as Haa.
    + subst a. intros _. apply Hbelow. by rewrite Ha.
    + apply Hbelow.
Qed.

Lemma run_fresh {A} (p : prog A) (s : state) : fresh s → fresh (final (run step p s)).
Proof.
  revert s. induction p as [a | X c k IH]; intros s Hf; simpl; [done |].
  pose proof (step_fresh c s Hf) as Hf'.
  destruct (step X c s) as [r s']. simpl in *. by apply IH.
Qed.

(** [data_SwiftToJava] when the allocator refuses. *)
Lemma swift_to_java_refused (s : state) (env : ptr) (d : CData) :
  ¬ (0 ≤ to_jint (count d) ∧ to_jint (count d) < capacity s) →
  run step (data_SwiftToJava env d) s =
    mkOutcome NULL (throw (refusal (to_jint (count d))) s)
      [Ev (Env_NewByteArray env (to_jint (count d))) NULL].
Proof.
  intros Hno. simpl. unfold NewByteArray.
  rewrite bool_decide_eq_false_2 by done. reflexivity.
Qed.

(** [data_SwiftToJava] when the allocator grants the array. *)
Lemma swift_to_java_granted (s : state) (env : ptr) (d : CData) :
  0 ≤ to_jint (count d) ∧ to_jint (count d) < capacity s →
  next_ref s ≠ NULL →
  let n := to_jint (count d) in
  run step (data_SwiftToJava env d) s =
    mkOutcome (next_ref s)
      (SetByteArrayRegion (next_ref s) 0 n (data d) (allocated n s)).2
      [Ev (Env_NewByteArray env n) (next_ref s);
       Ev (Env_SetByteArrayRegion env (next_ref s) 0 n (data d)) tt].
Proof.
  intros Hyes Hnn. simpl. unfold NewByteArray.
  rewrite bool_decide_eq_true_2 by done. simpl.
  rewrite bool_decide_eq_false_2 by done. simpl.
  fold (allocated (to_jint (count d)) s).
  by destruct (SetByteArrayRegion _ _ _ _ _) as [[] s2].
Qed.

(** Copying a whole readable buffer into a newly allocated array. *)
Lemma set_region_allocated (s : state) (n : Z) (buf : ptr) (bs : list Z) :
  0 ≤ n →
  read_bytes (bytes s) buf (Z.to_nat n) = Some bs →
  (SetByteArrayRegion (next_ref s) 0 n buf (allocated n s)).2
  = set_arrays (<[next_ref s := bs]> (arrays s)) (allocated n s).
Proof.
  intros Hn Hr. unfold SetByteArrayRegion. simpl. rewrite lookup_insert_eq.
  rewrite length_replicate, bool_decide_eq_true_2 by lia.
  rewrite Hr. simpl.
  rewrite drop_ge by (rewrite length_replicate; lia).
  rewrite app_nil_r. unfold set_arrays. simpl. by rewrite insert_insert_eq.
Qed.

(** Whatever the copy does, it touches at most the new array. *)
Lemma set_region_allocated_frame (s : state) (n : Z) (buf : ptr) :
  let s2 := (SetByteArrayRegion (next_ref s) 0 n buf (allocated n s)).2 in
  bytes s2 = bytes s ∧ slots s2 = slots s ∧ thread_env s2 = thread_env s ∧
  invoked s2 = invoked s ∧ next_ref s2 = next_ref s + 1 ∧
  ∀ a, a ≠ next_ref s → arrays s2 !! a = arrays s !! a.
Proof.
  unfold SetByteArrayRegion. simpl. rewrite lookup_insert_eq.
  case_bool_decide; [destruct (read_bytes _ _ _) |]; simpl;
    repeat split; try done; intros a Ha; by rewrite ?lookup_insert_ne.
Qed.

End JvmRuns.

(** X3. On an attached thread, [GetJVM] followed by [GetJNIEnv] on the VM
    that [GetJVM] stored leads back to the thread's environment: the first
    slot holds the VM, the second the environment. *)
Theorem GetJVM_GetJNIEnv_roundtrip (s : Jvm.state) (env vm_slot env_slot : ptr) :
  Jvm.thread_env s = Some env →
  let o1 := run Jvm.step (GetJVM env vm_slot) s in
  Jvm.slots (final o1) !! vm_slot = Some (Jvm.the_vm s) ∧
  let o2 := run Jvm.step (GetJNIEnv (Jvm.the_vm s) env_slot) (final o1) in
  Jvm.slots (final o2) !! env_slot = Some env ∧
  (vm_slot ≠ env_slot → Jvm.slots (final o2) !! vm_slot = Some (Jvm.the_vm s)).
Proof.
  intros Hatt. simpl. split; [apply lookup_insert_eq |].
  unfold Jvm.GetEnv. simpl. rewrite Hatt. simpl.
  split; [apply lookup_insert_eq |].
  intros Hne. rewrite lookup_insert_ne by done. apply lookup_insert_eq.
Qed.

(** X4. [GetJNIEnv] never meets an unsupported version: the runtime answers
    [JNI_OK] on an attached thread and [JNI_EDETACHED] otherwise.  The
    status is dropped, but the out slot tells the two apart: it holds the
    thread's environment when attached and [NULL] when not.  The attachment
    and the heap are as before. *)
Theorem GetJNIEnv_slot_reports_attachment (s : Jvm.state) (vm p_env : ptr) :
  let o := run Jvm.step (GetJNIEnv vm p_env) s in
  trace o = [Ev (VM_GetEnv vm p_env JNI_VERSION_1_6)
               (match Jvm.thread_env s with
                | Some _ => Jvm.JNI_OK
                | None => Jvm.JNI_EDETACHED
                end)] ∧
  Jvm.slots (final o) !! p_env = Some (default NULL (Jvm.thread_env s)) ∧
  Jvm.thread_env (final o) = Jvm.thread_env s ∧
  Jvm.arrays (final o) = Jvm.arrays s ∧
  Jvm.bytes (final o) = Jvm.bytes s.
Proof.
  simpl. unfold Jvm.GetEnv.
  destruct (Jvm.thread_env s) as [e |] eqn:He; simpl; rewrite ?He;
    repeat split; try done; apply lookup_insert_eq.
Qed.

(** X5. On a detached thread for which the runtime has an environment to
    hand out, [AttachCurrentThread] followed by [DetachCurrentThread]
    succeeds twice: the runtime answers [JNI_OK] to both calls, the slot
    holds the environment handed out, the thread is detached again, and the
    runtime was not taken outside its contract. *)
Theorem attach_then_detach (s : Jvm.state) (vm p_env : ptr) :
  Jvm.thread_env s = None →
  Jvm.spare_env s ≠ NULL →
  let o := run Jvm.step (AttachCurrentThread vm p_env ≫= λ _, DetachCurrentThread vm) s in
  trace o = [Ev (VM_AttachCurrentThread vm p_env NULL) Jvm.JNI_OK;
             Ev (VM_DetachCurrentThread vm) Jvm.JNI_OK] ∧
  Jvm.slots (final o) !! p_env = Some (Jvm.spare_env s) ∧
  Jvm.thread_env (final o) = None ∧
  Jvm.off_contract (final o) = Jvm.off_contract s.
Proof.
  intros Hdet Hspare. simpl. unfold Jvm.AttachCurrentThread. rewrite Hdet.
  rewrite bool_decide_eq_false_2 by done. simpl.
  repeat split; try done. apply lookup_insert_eq.
Qed.

(** X8. In a heap whose references are in order, [data_SwiftToJava] returns
    an array exactly when the count fits [jsize] and is below the heap's
    remaining capacity. *)
Theorem data_SwiftToJava_success_iff (s : Jvm.state) (env : ptr) (d : CData) :
  Jvm.fresh s →
  uint_range (count d) →
  value (run Jvm.step (data_SwiftToJava env d) s) ≠ NULL
  ↔ count d ≤ jint_max ∧ count d < Jvm.capacity s.
Proof.
  intros [Hpos _] Hc. unfold uint_range in Hc.
  destruct (Z_le_gt_dec (count d) jint_max) as [Hle | Hgt].
  - assert (Hn : to_jint (count d) = count d).
    { apply to_jint_small. unfold jint_range, jint_min. lia. }
    destruct (Z_lt_ge_dec (count d) (Jvm.capacity s)) as [Hcap | Hcap].
    + rewrite JvmRuns.swift_to_java_granted; rewrite ?Hn; unfold NULL; simpl; lia.
    + rewrite JvmRuns.swift_to_java_refused by (rewrite Hn; lia). simpl. split; [done | lia].
  - rewrite JvmRuns.swift_to_java_refused.
    + simpl. split; [done | lia].
    + rewrite to_jint_large by lia. unfold jint_max in Hgt. lia.
Qed.

(** X9. In a heap whose references are in order, [data_SwiftToJava] leaves
    native memory, the out slots and the thread's attachment as they were,
    every array that existed before keeps its contents, and the returned
    reference is none of theirs. *)
Theorem data_SwiftToJava_frame (s : Jvm.state) (env : ptr) (d : CData) :
  Jvm.fresh s →
  let o := run Jvm.step (data_SwiftToJava env d) s in
  Jvm.bytes (final o) = Jvm.bytes s ∧
  Jvm.slots (final o) = Jvm.slots s ∧
  Jvm.thread_env (final o) = Jvm.thread_env s ∧
  ∀ a elems, Jvm.arrays s !! a = Some elems →
             Jvm.arrays (final o) !! a = Some elems ∧ a ≠ value o.
Proof.
  intros [Hpos Hbelow].
  assert (Hold : ∀ a elems, Jvm.arrays s !! a = Some elems → 0 < a < Jvm.next_ref s).
  { intros a elems Ha. apply Hbelow. by rewrite Ha. }
  destruct (decide (0 ≤ to_jint (count d) ∧ to_jint (count d) < Jvm.capacity s))
    as [Hyes | Hno].
  - rewrite JvmRuns.swift_to_java_granted by (unfold NULL; done || lia). simpl.
    pose proof (JvmRuns.set_region_allocated_frame s (to_jint (count d)) (data d)) as Hfr.
    simpl in Hfr. destruct Hfr as (Hb & Hs & Ht & _ & _ & Ha).
    split; [done |]. split; [done |]. split; [done |].
    intros a elems Hin. specialize (Hold _ _ Hin).
    split; [| lia]. rewrite Ha; [done | lia].
  - rewrite JvmRuns.swift_to_java_refused by done. simpl.
    split; [done |]. split; [done |]. split; [done |].
    intros a elems Hin. specialize (Hold _ _ Hin).
    split; [done |]. unfold NULL. lia.
Qed.

(** X10. For an empty buffer the data pointer is never read: with any two
    pointers, readable or not, [data_SwiftToJava] returns the same reference
    and leaves the same state, and the array, when there is one, is empty. *)
Theorem data_SwiftToJava_empty (s : Jvm.state) (env : ptr) (p1 p2 : ptr) :
  let o1 := run Jvm.step (data_SwiftToJava env (mkCData p1 0)) s in
  let o2 := run Jvm.step (data_SwiftToJava env (mkCData p2 0)) s in
  value o1 = value o2 ∧ final o1 = final o2 ∧
  (value o1 ≠ NULL → Jvm.arrays (final o1) !! value o1 = Some []).
Proof.
  simpl. unfold Jvm.NewByteArray.
  change (to_jint 0) with 0.
  case_bool_decide as Hcap; simpl; [| done].
  case_bool_decide as Hnull; simpl; [done |].
  unfold Jvm.SetByteArrayRegion. simpl. rewrite lookup_insert_eq. simpl.
  split; [done |]. split; [done |]. intros _. apply lookup_insert_eq.
Qed.

(** X11. Reading an array through the helpers: with the length from
    [GetArrayLength] and the pointer from [GetByteArrayElements], native
    memory at the pointer holds exactly the array's elements, in order.  The
    heap is not changed by the two calls. *)
Theorem array_to_buffer (s : Jvm.state) (env cls bArray : ptr) (elems : list Z) :
  Jvm.arrays s !! bArray = Some elems →
  let l := run Jvm.step (GetArrayLength env cls bArray) s in
  let e := run Jvm.step (GetByteArrayElements env cls bArray) (final l) in
  value l = Z.of_nat (length elems) ∧
  Jvm.read_bytes (Jvm.bytes (final e)) (value e) (Z.to_nat (value l)) = Some elems ∧
  Jvm.arrays (final e) = Jvm.arrays s.
Proof.
  intros Ha. simpl. unfold Jvm.GetByteArrayElements. rewrite Ha. simpl.
  split; [done |]. split; [| done].
  rewrite Nat2Z.id. apply JvmFacts.read_write_bytes.
Qed.

(** X12. From an array to a buffer and back: the length and the pointer the
    helpers give for an array, handed to [data_SwiftToJava] as a buffer,
    yield a new array, different from the first, with the same elements;
    the first array still has them too. *)
Theorem array_buffer_array_roundtrip
    (s : Jvm.state) (env cls bArray : ptr) (elems : list Z) :
  Jvm.wf s →
  Jvm.fresh s →
  Jvm.arrays s !! bArray = Some elems →
  Z.of_nat (length elems) < Jvm.capacity s →
  let l := run Jvm.step (GetArrayLength env cls bArray) s in
  let e := run Jvm.step (GetByteArrayElements env cls bArray) (final l) in
  let o := run Jvm.step (data_SwiftToJava env (mkCData (value e) (value l))) (final e) in
  value o ≠ NULL ∧ value o ≠ bArray ∧
  Jvm.arrays (final o) !! value o = Some elems ∧
  Jvm.arrays (final o) !! bArray = Some elems.
Proof.
  intros [_ Hwf] [Hpos Hbelow] Ha Hcap l e o.
  pose proof (Hwf _ _ Ha) as Hlen.
  assert (Hb : 0 < bArray < Jvm.next_ref s) by (apply Hbelow; by rewrite Ha).
  set (n := Z.of_nat (length elems)) in *.
  set (s1 := Jvm.set_next_addr (Jvm.next_addr s + n + 1)
               (Jvm.set_bytes (Jvm.write_bytes (Jvm.next_addr s) elems (Jvm.bytes s)) s)).
  assert (Hl : value l = n ∧ final l = s).
  { subst l. simpl. by rewrite Ha. }
  destruct Hl as [Hvl Hfl].
  assert (He : value e = Jvm.next_addr s ∧ final e = s1).
  { subst e. rewrite Hfl. simpl. unfold Jvm.GetByteArrayElements. by rewrite Ha. }
  destruct He as [Hve Hfe].
  assert (Hn : to_jint n = n).
  { apply to_jint_small. unfold jint_range, jint_min. lia. }
  assert (Hr : Jvm.read_bytes (Jvm.bytes s1) (Jvm.next_addr s) (Z.to_nat n) = Some elems).
  { subst s1 n. simpl. rewrite Nat2Z.id. apply JvmFacts.read_write_bytes. }
  subst o. rewrite Hve, Hvl, Hfe.
  rewrite JvmRuns.swift_to_java_granted
    by (cbn [count data]; rewrite ?Hn; subst s1; simpl; unfold NULL; lia).
  cbn [value final count data]. rewrite Hn.
  rewrite (JvmRuns.set_region_allocated s1 n (Jvm.next_addr s) elems) by (done || lia).
  change (Jvm.next_ref s1) with (Jvm.next_ref s).
  change (Jvm.arrays s1) with (Jvm.arrays s).
  cbn [Jvm.arrays Jvm.set_arrays]. unfold NULL.
  split; [lia |]. split; [lia |].
  split; [apply lookup_insert_eq |].
  rewrite lookup_insert_ne by lia. done.
Qed.

(** X14. When the runtime knows the class of the object, and that class
    has a method of the given name and signature with a non-null
    identifier, [CallVoidMethod] makes the runtime record one invocation of
    that identifier on the object and changes nothing else. *)
Theorem CallVoidMethod_invokes_resolved
    (s : Jvm.state) (env obj cls mid : ptr) (name sig : string) :
  Jvm.classes s !! obj = Some cls →
  Jvm.methods s !! (cls, name, sig) = Some mid →
  mid ≠ NULL →
  let o := run Jvm.step (CallVoidMethod env obj name sig) s in
  trace o = [Ev (Env_GetObjectClass env obj) cls;
             Ev (Env_GetMethodID env cls name sig) mid;
             Ev (Env_CallVoidMethod env obj mid) tt] ∧
  final o = Jvm.set_invoked (Jvm.invoked s ++ [(obj, mid)]) s.
Proof.
  intros Hcls Hmid Hnn. simpl. unfold Jvm.GetObjectClass. rewrite Hcls. simpl.
  unfold Jvm.GetMethodID. rewrite Hmid. simpl.
  unfold Jvm.CallVoidMethod. rewrite bool_decide_eq_false_2 by done. done.
Qed.

(** ** The further properties at concrete inputs *)

Lemma attached_fresh : Jvm.fresh Demo.attached.
Proof.
  split; [reflexivity |]. intros a [elems H]. simpl in H.
  by rewrite lookup_empty in H.
Qed.

Lemma with_array_fresh : Jvm.fresh Demo.with_array.
Proof.
  split; [reflexivity |]. intros a [elems H]. simpl in H.
  apply lookup_singleton_Some in H as [<- _]. simpl. lia.
Qed.

(** [data_SwiftToJava] reaches [SetByteArrayRegion], which is not its own
    entry point. *)
Lemma helper_footprint_witness :
  calls_to SetByteArrayRegion_e
    (trace (run Jvm.step (body (H_data_SwiftToJava Demo.env0 Demo.abc)) Demo.attached))
  ≠ 0%nat ∧
  (SetByteArrayRegion_e = entry_point (H_data_SwiftToJava Demo.env0 Demo.abc)
   ∨ (∃ env obj name sig, H_data_SwiftToJava Demo.env0 Demo.abc
                          = H_CallVoidMethod env obj name sig)
     ∧ (SetByteArrayRegion_e = GetObjectClass_e ∨ SetByteArrayRegion_e = GetMethodID_e)
   ∨ (∃ env d, H_data_SwiftToJava Demo.env0 Demo.abc = H_data_SwiftToJava env d)
     ∧ SetByteArrayRegion_e = SetByteArrayRegion_e).
Proof.
  assert (H : calls_to SetByteArrayRegion_e
                (trace (run Jvm.step (body (H_data_SwiftToJava Demo.env0 Demo.abc))
                          Demo.attached)) ≠ 0%nat) by (vm_compute; discriminate).
  split; [exact H |].
  exact (proj2 (helper_footprint Jvm.step Demo.attached
                  (H_data_SwiftToJava Demo.env0 Demo.abc) SetByteArrayRegion_e) H).
Defined.

Lemma GetJVM_GetJNIEnv_roundtrip_witness :
  Jvm.thread_env Demo.attached = Some Demo.env0 ∧
  let o1 := run Jvm.step (GetJVM Demo.env0 Demo.slot0) Demo.attached in
  let o2 := run Jvm.step (GetJNIEnv Demo.vm0 72) (final o1) in
  Jvm.slots (final o2) !! 72 = Some Demo.env0 ∧
  Jvm.slots (final o2) !! Demo.slot0 = Some Demo.vm0.
Proof.
  assert (H : Jvm.thread_env Demo.attached = Some Demo.env0) by reflexivity.
  pose proof (GetJVM_GetJNIEnv_roundtrip Demo.attached Demo.env0 Demo.slot0 72 H) as T.
  cbv zeta in T. destruct T as (_ & He & Hv).
  split; [exact H |]. cbv zeta. split; [exact He |].
  apply Hv. unfold Demo.slot0. lia.
Defined.

Lemma data_SwiftToJava_success_iff_witness :
  Jvm.fresh Demo.attached ∧ uint_range (count Demo.abc) ∧
  value (run Jvm.step (data_SwiftToJava Demo.env0 Demo.abc) Demo.attached) ≠ NULL.
Proof.
  assert (H1 : uint_range (count Demo.abc)) by (unfold uint_range; simpl; lia).
  split; [exact attached_fresh |]. split; [exact H1 |].
  apply (data_SwiftToJava_success_iff Demo.attached Demo.env0 Demo.abc attached_fresh H1).
  unfold jint_max. simpl. lia.
Defined.

Lemma data_SwiftToJava_frame_witness :
  Jvm.fresh Demo.with_array ∧
  let o := run Jvm.step (data_SwiftToJava Demo.env0 Demo.abc) Demo.with_array in
  Jvm.bytes (final o) = Jvm.bytes Demo.with_array ∧
  Jvm.arrays (final o) !! 5 = Some [65; 0; -1] ∧ 5 ≠ value o.
Proof.
  pose proof (data_SwiftToJava_frame Demo.with_array Demo.env0 Demo.abc with_array_fresh) as T.
  cbv zeta in T. destruct T as (Hb & _ & _ & Ha).
  destruct (Ha 5 [65; 0; -1] eq_refl) as [Ha1 Ha2].
  split; [exact with_array_fresh |]. cbv zeta.
  split; [exact Hb |]. split; [exact Ha1 | exact Ha2].
Defined.

Lemma data_SwiftToJava_empty_witness :
  let o := run Jvm.step (data_SwiftToJava Demo.env0 (mkCData NULL 0)) Demo.attached in
  value o ≠ NULL ∧
  value o = value (run Jvm.step (data_SwiftToJava Demo.env0 (mkCData Demo.buf0 0))
                     Demo.attached) ∧
  Jvm.arrays (final o) !! value o = Some [].
Proof.
  assert (H : value (run Jvm.step (data_SwiftToJava Demo.env0 (mkCData NULL 0))
                       Demo.attached) ≠ NULL) by (vm_compute; discriminate).
  pose proof (data_SwiftToJava_empty Demo.attached Demo.env0 NULL Demo.buf0) as T.
  cbv zeta in T. destruct T as (Hv & _ & Ha).
  cbv zeta. split; [exact H |]. split; [exact Hv | exact (Ha H)].
Defined.

Lemma array_to_buffer_witness :
  Jvm.arrays Demo.with_array !! 5 = Some [65; 0; -1] ∧
  let l := run Jvm.step (GetArrayLength Demo.env0 Demo.cls0 5) Demo.with_array in
  let e := run Jvm.step (GetByteArrayElements Demo.env0 Demo.cls0 5) (final l) in
  value l = 3 ∧
  Jvm.read_bytes (Jvm.bytes (final e)) (value e) (Z.to_nat (value l)) = Some [65; 0; -1].
Proof.
  assert (H : Jvm.arrays Demo.with_array !! 5 = Some [65; 0; -1]) by reflexivity.
  pose proof (array_to_buffer Demo.with_array Demo.env0 Demo.cls0 5 [65; 0; -1] H) as T.
  cbv zeta in T. destruct T as (Hl & Hr & _).
  split; [exact H |]. cbv zeta. split; [exact Hl | exact Hr].
Defined.

Lemma array_buffer_array_roundtrip_witness :
  Jvm.wf Demo.with_array ∧ Jvm.fresh Demo.with_array ∧
  Jvm.arrays Demo.with_array !! 5 = Some [65; 0; -1] ∧
  Z.of_nat (length [65; 0; -1]) < Jvm.capacity Demo.with_array ∧
  let l := run Jvm.step (GetArrayLength Demo.env0 Demo.cls0 5) Demo.with_array in
  let e := run Jvm.step (GetByteArrayElements Demo.env0 Demo.cls0 5) (final l) in
  let o := run Jvm.step (data_SwiftToJava Demo.env0 (mkCData (value e) (value l))) (final e) in
  value o ≠ 5 ∧ Jvm.arrays (final o) !! value o = Some [65; 0; -1].
Proof.
  assert (H3 : Jvm.arrays Demo.with_array !! 5 = Some [65; 0; -1]) by reflexivity.
  assert (H4 : Z.of_nat (length [65; 0; -1]) < Jvm.capacity Demo.with_array)
    by (simpl; lia).
  pose proof (array_buffer_array_roundtrip Demo.with_array Demo.env0 Demo.cls0 5
                [65; 0; -1] with_array_wf with_array_fresh H3 H4) as T.
  cbv zeta in T. destruct T as (_ & Hne & Hnew & _).
  split; [exact with_array_wf |]. split; [exact with_array_fresh |].
  split; [exact H3 |]. split; [exact H4 |]. cbv zeta.
  split; [exact Hne | exact Hnew].
Defined.

Lemma attach_then_detach_witness :
  Jvm.thread_env Demo.detached = None ∧
  Jvm.spare_env Demo.detached ≠ NULL ∧
  let o := run Jvm.step
             (AttachCurrentThread Demo.vm0 Demo.slot0 ≫= λ _, DetachCurrentThread Demo.vm0)
             Demo.detached in
  Jvm.slots (final o) !! Demo.slot0 = Some Demo.env0 ∧
  Jvm.thread_env (final o) = None ∧
  Jvm.off_contract (final o) = false.
Proof.
  assert (H1 : Jvm.thread_env Demo.detached = None) by reflexivity.
  assert (H2 : Jvm.spare_env Demo.detached ≠ NULL) by (vm_compute; discriminate).
  pose proof (attach_then_detach Demo.detached Demo.vm0 Demo.slot0 H1 H2) as T.
  cbv zeta in T. destruct T as (_ & Hslot & Hthr & Hoff).
  split; [exact H1 |]. split; [exact H2 |]. cbv zeta.
  split; [exact Hslot |]. split; [exact Hthr | exact Hoff].
Defined.

Lemma CallVoidMethod_invokes_resolved_witness :
  Jvm.classes Demo.with_object !! 9 = Some 3 ∧
  Jvm.methods Demo.with_object !! (3, "run", "()V") = Some 40 ∧
  40 ≠ NULL ∧
  Jvm.invoked (final (run Jvm.step (CallVoidMethod Demo.env0 9 "run" "()V")
                        Demo.with_object)) = [(9, 40)].
Proof.
  assert (H1 : Jvm.classes Demo.with_object !! 9 = Some 3) by reflexivity.
  assert (H2 : Jvm.methods Demo.with_object !! (3, "run", "()V") = Some 40) by reflexivity.
  assert (H3 : 40 ≠ NULL) by (unfold NULL; lia).
  pose proof (CallVoidMethod_invokes_resolved Demo.with_object Demo.env0 9 3 40
                "run" "()V" H1 H2 H3) as T.
  cbv zeta in T. destruct T as [_ Hf].
  split; [exact H1 |]. split; [exact H2 |]. split; [exact H3 |].
  rewrite Hf. reflexivity.
Defined.
